(** * Session procurement and authorization injection (klein, [_session.py])

    A shallow embedding of [SessionProcurer.procureSession],
    [AuthorizationDenied.render] and [Authorization.injectValue].

    Conventions of the embedding.
    - Python [bytes] is [list byte]; Python [str] is [string], read as a
      sequence of code points below 256 (the code only compares and formats
      text, so nothing depends on larger code points).
    - The request, the session store and the session are collaborators that
      live outside the module.  The request is a record of what the code
      reads and writes on it; the store is a record of three operations over
      a store state [St] of its own; a session carries its [identifier] and
      its [authorize] surface.
    - A Deferred fired with a value or a failure is a result [exn + A].
      Code decorated with [inlineCallbacks] runs its steps in sequence, so it
      is a computation in the monad [M]: it threads the request and the store
      state, may raise, and records every call made on the store. *)

From Stdlib Require Import List Strings.String Strings.Ascii Strings.Byte Bool NArith ZArith.
Import ListNotations.

Set Implicit Arguments.
Local Open Scope bool_scope.

(** ** Bytes and text *)

Definition bytes : Type := list byte.

(** A bytes literal [b"..."]. *)
Definition b (s : string) : bytes := list_byte_of_string s.

Definition bytes_eq_dec : forall x y : bytes, {x = y} + {x <> y} :=
  list_eq_dec Byte.byte_eq_dec.

Definition bytes_eqb (x y : bytes) : bool :=
  if bytes_eq_dec x y then true else false.

(** Truth value of an optional bytes object: [None] and the empty bytes
    object are false. *)
Definition truthy (it : option bytes) : bool :=
  match it with
  | Some (_ :: _) => true
  | _ => false
  end.

(** ** Collaborators declared in [klein.interfaces] *)

Inductive SessionMechanism : Type :=
| Cookie
| Header.

Definition SessionMechanism_eqb (x y : SessionMechanism) : bool :=
  match x, y with
  | Cookie, Cookie | Header, Header => true
  | _, _ => false
  end.

(** A zope interface; it is named, hashed and compared by module and name. *)
Record IInterface : Type := {
  __module__ : string;
  __name__ : string
}.

Definition IInterface_eqb (i j : IInterface) : bool :=
  String.eqb (__module__ i) (__module__ j) && String.eqb (__name__ i) (__name__ j).

(** [twisted.python.reflect.qual] *)
Definition qual (i : IInterface) : string :=
  (__module__ i ++ "." ++ __name__ i)%string.

(** [twisted.web.http.UNAUTHORIZED] *)
Definition UNAUTHORIZED : Z := 401.

(** The resource carried by [EarlyExit]. *)
Record AuthorizationDenied : Type := {
  _interface_denied : IInterface
}.

Inductive exn : Type :=
| NoSuchSession
| TooLateForCookies (msg : string)
| EarlyExit (resource : AuthorizationDenied)
| UnicodeDecodeError
| TypeError
| AttributeError.

(** [raw.decode('ascii')]: every byte must be below 0x80. *)
Fixpoint decode_ascii (raw : bytes) : exn + string :=
  match raw with
  | [] => inr EmptyString
  | c :: rest =>
      if (Byte.to_N c <? 128)%N then
        match decode_ascii rest with
        | inr s => inr (String (ascii_of_byte c) s)
        | inl e => inl e
        end
      else inl UnicodeDecodeError
  end.

(** [text.encode('utf-8')] on code points below 256. *)
Definition encode_utf8_char (c : ascii) : bytes :=
  let n := N_of_ascii c in
  if (n <? 128)%N then [byte_of_ascii c]
  else [byte_of_ascii (ascii_of_N (N.lor 192 (N.shiftr n 6)));
        byte_of_ascii (ascii_of_N (N.lor 128 (N.land n 63)))].

Fixpoint encode_utf8 (s : string) : bytes :=
  match s with
  | EmptyString => []
  | String c rest => encode_utf8_char c ++ encode_utf8 rest
  end.

(** A value handed to [request.addCookie] as one of its arguments. *)
Inductive cookie_arg : Type :=
| ArgNone
| ArgBytes (val : bytes)
| ArgText (val : string)
| ArgInt (val : Z).

(** [_ensureBytes] of Twisted's [Request.addCookie]: [None] and bytes pass
    as they are, anything else is turned to bytes by [val.encode('utf8')],
    which an int does not have. *)
Definition _ensureBytes (val : cookie_arg) : exn + option bytes :=
  match val with
  | ArgNone => inr None
  | ArgBytes v => inr (Some v)
  | ArgText v => inr (Some (encode_utf8 v))
  | ArgInt _ => inl AttributeError
  end.

Section Klein.

(** What a session authorizes, and the state a session store keeps. *)
Variable Provider : Type.
Variable St : Type.

(** A Python dict from interfaces to providers; a stored value may be
    [None]. *)
Definition dict : Type := list (IInterface * option Provider).

(** [d.get(key)] *)
Fixpoint dict_get (d : dict) (key : IInterface) : option Provider :=
  match d with
  | [] => None
  | (k, v) :: rest => if IInterface_eqb k key then v else dict_get rest key
  end.

Record ISession : Type := {
  identifier : string;
  authorize : list IInterface -> dict
}.

Record ISessionStore : Type := {
  newSession : bool -> SessionMechanism -> St -> ISession * St;
  loadSession : string -> bool -> SessionMechanism -> St -> (exn + ISession) * St;
  sentInsecurely : list bytes -> St -> St
}.

(** The calls a procurement makes on the store, in order. *)
Inductive StoreCall : Type :=
| CallNewSession (sentSecurely : bool) (mechanism : SessionMechanism)
| CallLoadSession (sessionID : string) (sentSecurely : bool) (mechanism : SessionMechanism)
| CallSentInsecurely (tokens : list bytes).

(** The arguments of one [request.addCookie] call. *)
Record SetCookie : Type := {
  cookie_name : bytes;
  cookie_value : string;
  cookie_max_age : Z;
  cookie_domain : option bytes;
  cookie_path : bytes;
  cookie_secure : bool;
  cookie_httpOnly : bool
}.

(** The request, as far as this module touches it.  [requestHeaders] gives
    every raw value received under a header name ([[]] when there is none),
    [received_cookies] the value of a received cookie, [cookies] the cookies
    added to the response so far, and [component] the [ISession] component
    set on the request. *)
Record IRequest : Type := {
  isSecure : bool;
  requestHeaders : bytes -> list bytes;
  received_cookies : bytes -> option bytes;
  method : bytes;
  startedWriting : bool;
  cookies : list SetCookie;
  component : option ISession;
  responseCode : Z
}.

Record World : Type := {
  request : IRequest;
  storeState : St
}.

(** ** The monad of [inlineCallbacks] code *)

Definition M (A : Type) : Type := World -> (exn + A) * World * list StoreCall.

Definition ret {A} (a : A) : M A := fun w => (inr a, w, []).

Definition raise {A} (e : exn) : M A := fun w => (inl e, w, []).

Definition bind {A B} (m : M A) (f : A -> M B) : M B :=
  fun w =>
    match m w with
    | (inl e, w', c) => (inl e, w', c)
    | (inr a, w', c) =>
        match f a w' with
        | (r, w'', c') => (r, w'', c ++ c')
        end
    end.

(** [try: m  except NoSuchSession: h] *)
Definition except_NoSuchSession {A} (m : M A) (h : M A) : M A :=
  fun w =>
    match m w with
    | (inl NoSuchSession, w', c) =>
        match h w' with
        | (r, w'', c') => (r, w'', c ++ c')
        end
    | other => other
    end.

Definition lift {A} (r : exn + A) : M A := fun w => (r, w, []).

Definition result {A} (o : (exn + A) * World * list StoreCall) : exn + A := fst (fst o).
Definition final {A} (o : (exn + A) * World * list StoreCall) : World := snd (fst o).
Definition calls {A} (o : (exn + A) * World * list StoreCall) : list StoreCall := snd o.

Declare Scope klein_scope.
Notation "x <- m ;; k" := (bind m (fun x => k))
  (at level 61, m at next level, right associativity) : klein_scope.
Notation "' p <- m ;; k" := (bind m (fun x => match x with p => k end))
  (at level 61, p pattern, m at next level, right associativity) : klein_scope.
Notation "m ;; k" := (bind m (fun _ => k))
  (at level 61, right associativity) : klein_scope.
Local Open Scope klein_scope.

(** ** Operations on the request *)

(** Read an attribute of the request, or the answer of one of its getters. *)
Definition gets {A} (f : IRequest -> A) : M A :=
  fun w => (inr (f (request w)), w, []).

(** [request.getCookie(key)] *)
Definition getCookie (key : bytes) (r : IRequest) : option bytes :=
  received_cookies r key.

(** [request.requestHeaders.getRawHeaders(name, [])] *)
Definition getRawHeaders (name : bytes) (r : IRequest) : list bytes :=
  requestHeaders r name.

(** [request.getHeader(key)]: the last raw value, [None] without one. *)
Definition getHeader (key : bytes) (r : IRequest) : option bytes :=
  match rev (requestHeaders r key) with
  | [] => None
  | v :: _ => Some v
  end.

(** [request.getComponent(ISession)] *)
Definition getComponent (r : IRequest) : option ISession := component r.

Definition with_cookies (r : IRequest) (cs : list (SetCookie)) : IRequest :=
  {| isSecure := isSecure r; requestHeaders := requestHeaders r;
     received_cookies := received_cookies r; method := method r;
     startedWriting := startedWriting r; cookies := cs;
     component := component r; responseCode := responseCode r |}.

Definition with_component (r : IRequest) (s : option ISession) : IRequest :=
  {| isSecure := isSecure r; requestHeaders := requestHeaders r;
     received_cookies := received_cookies r; method := method r;
     startedWriting := startedWriting r; cookies := cookies r;
     component := s; responseCode := responseCode r |}.

Definition with_responseCode (r : IRequest) (code : Z) : IRequest :=
  {| isSecure := isSecure r; requestHeaders := requestHeaders r;
     received_cookies := received_cookies r; method := method r;
     startedWriting := startedWriting r; cookies := cookies r;
     component := component r; responseCode := code |}.

Definition modify_request (f : IRequest -> IRequest) : M unit :=
  fun w => (inr tt, {| request := f (request w); storeState := storeState w |}, []).

(** [request.addCookie(k, v, max_age=, domain=, path=, secure=, httpOnly=)]
    as Twisted's [Request] does it: name, value, domain, path and max age
    go through [_ensureBytes], in this order, before the cookie is stored.
    The name and the path are bytes, the value is text, the domain is bytes
    or [None], and the max age is the int of [_maxAge] (lines 79 and 176):
    the call raises at the max age and stores nothing. *)
Definition addCookie (c : SetCookie) : M unit :=
  lift (_ensureBytes (ArgBytes (cookie_name c))) ;;
  lift (_ensureBytes (ArgText (cookie_value c))) ;;
  lift (_ensureBytes (match cookie_domain c with
                      | Some d => ArgBytes d
                      | None => ArgNone
                      end)) ;;
  lift (_ensureBytes (ArgBytes (cookie_path c))) ;;
  lift (_ensureBytes (ArgInt (cookie_max_age c))) ;;
  modify_request (fun r => with_cookies r (cookies r ++ [c])).

(** [request.setComponent(ISession, session)] *)
Definition setComponent (session : ISession) : M unit :=
  modify_request (fun r => with_component r (Some session)).

(** [request.setResponseCode(code)] *)
Definition setResponseCode (code : Z) : M unit :=
  modify_request (fun r => with_responseCode r code).

(** [ISession(request)]: the component set on the request; adaptation fails
    with [TypeError] when there is none. *)
Definition ISession_of_request : M ISession :=
  fun w =>
    match getComponent (request w) with
    | Some s => (inr s, w, [])
    | None => (inl TypeError, w, [])
    end.

(** ** Calls on the session store *)

Definition store_newSession (store : ISessionStore) (sentSecurely : bool)
    (mechanism : SessionMechanism) : M ISession :=
  fun w =>
    match newSession store sentSecurely mechanism (storeState w) with
    | (s, st) =>
        (inr s, {| request := request w; storeState := st |},
         [CallNewSession sentSecurely mechanism])
    end.

Definition store_loadSession (store : ISessionStore) (sessionID : string)
    (sentSecurely : bool) (mechanism : SessionMechanism) : M ISession :=
  fun w =>
    match loadSession store sessionID sentSecurely mechanism (storeState w) with
    | (r, st) =>
        (r, {| request := request w; storeState := st |},
         [CallLoadSession sessionID sentSecurely mechanism])
    end.

Definition store_sentInsecurely (store : ISessionStore) (tokens : list bytes) : M unit :=
  fun w =>
    (inr tt,
     {| request := request w; storeState := sentInsecurely store tokens (storeState w) |},
     [CallSentInsecurely tokens]).

(** ** [SessionProcurer] *)

Record SessionProcurer : Type := {
  _store : ISessionStore;
  _maxAge : Z;
  _secureCookie : bytes;
  _insecureCookie : bytes;
  _cookieDomain : option bytes;
  _cookiePath : bytes;
  _secureTokenHeader : bytes;
  _insecureTokenHeader : bytes;
  _setCookieOnGET : bool
}.

(** A keyword argument left out takes the attribute's default. *)
Definition default {A} (given : option A) (d : A) : A :=
  match given with
  | Some a => a
  | None => d
  end.

(** The [__init__] that [attr.s] generates from the [attr.ib] declarations:
    none of them has a validator or a converter. *)
Definition SessionProcurer_init (store : ISessionStore)
    (maxAge : option Z) (secureCookie insecureCookie : option bytes)
    (cookieDomain : option (option bytes)) (cookiePath : option bytes)
    (secureTokenHeader insecureTokenHeader : option bytes)
    (setCookieOnGET : option bool) : exn + SessionProcurer :=
  inr {| _store := store;
         _maxAge := default maxAge 3600%Z;
         _secureCookie := default secureCookie (b "Klein-Secure-Session");
         _insecureCookie := default insecureCookie (b "Klein-INSECURE-Session");
         _cookieDomain := default cookieDomain None;
         _cookiePath := default cookiePath (b "/");
         _secureTokenHeader := default secureTokenHeader (b "X-Auth-Token");
         _insecureTokenHeader := default insecureTokenHeader (b "X-INSECURE-Auth-Token");
         _setCookieOnGET := default setCookieOnGET true |}.

Definition too_late_to_initialize : string :=
  "You tried initializing a cookie-based session too late in the request pipeline; the headers were already sent.".

Definition too_late_to_change : string :=
  "You tried changing a session ID to a new session ID too late in the request pipeline; the headers were already sent.".

(** [sessionID != session.identifier], where [sessionID] may be [None]. *)
Definition differs (sessionID : option string) (ident : string) : bool :=
  match sessionID with
  | Some s => negb (String.eqb s ident)
  | None => true
  end.

(** The tokens reported to the store on an insecure transport: every raw
    value of both token headers, then the non-empty values of both cookies. *)
Definition allPossibleSentTokens (self : SessionProcurer) (r : IRequest) : list bytes :=
  fold_left (@app bytes)
    (map (fun header => getRawHeaders header r)
       [_secureTokenHeader self; _insecureTokenHeader self]) []
  ++ flat_map (fun it => match it with Some v => [v] | None => [] end)
       (filter truthy
          (map (fun cookie => getCookie cookie r)
             [_secureCookie self; _insecureCookie self])).

Definition procureSession (self : SessionProcurer) (forceInsecure : bool)
  : M (option ISession) :=
  alreadyProcured <- gets getComponent ;;
  match alreadyProcured with
  | Some s => ret (Some s)
  | None =>
    secure <- gets isSecure ;;
    '(tokenHeader, cookieName, sentSecurely) <-
      (if secure then
         if forceInsecure
         then ret (_insecureTokenHeader self, _insecureCookie self, false)
         else ret (_secureTokenHeader self, _secureCookie self, true)
       else
         tokens <- gets (allPossibleSentTokens self) ;;
         store_sentInsecurely (_store self) tokens ;;
         ret (_insecureTokenHeader self, _insecureCookie self, false)) ;;
    fromHeader <- gets (getHeader tokenHeader) ;;
    '(mechanism, sessionID) <-
      match fromHeader with
      | Some v => ret (Header, Some v)
      | None =>
          fromCookie <- gets (getCookie cookieName) ;;
          ret (Cookie, fromCookie)
      end ;;
    (* [loaded] is [Some (sessionID, session)] when a session was loaded and
       [None] when [sessionID] is [None] after the lookup. *)
    loaded <-
      match sessionID with
      | Some raw =>
          sessionID <- lift (decode_ascii raw) ;;
          except_NoSuchSession
            (session <- store_loadSession (_store self) sessionID sentSecurely mechanism ;;
             ret (Some (sessionID, session)))
            (if SessionMechanism_eqb mechanism Header
             then raise NoSuchSession
             else ret None)
      | None => ret None
      end ;;
    (* [resolved] is [None] on the early [returnValue(None)]. *)
    resolved <-
      match loaded with
      | Some (sessionID, session) => ret (Some (Some sessionID, session))
      | None =>
          meth <- gets method ;;
          if negb (bytes_eqb meth (b "GET")) || negb (_setCookieOnGET self)
          then ret None
          else
            started <- gets startedWriting ;;
            if started
            then raise (TooLateForCookies too_late_to_initialize)
            else
              session <- store_newSession (_store self) sentSecurely mechanism ;;
              ret (Some (None, session))
      end ;;
    match resolved with
    | None => ret None
    | Some (sessionID, session) =>
        meth <- gets method ;;
        (if differs sessionID (identifier session)
            && bytes_eqb meth (b "GET")
            && _setCookieOnGET self
         then
           started <- gets startedWriting ;;
           if started
           then raise (TooLateForCookies too_late_to_change)
           else
             addCookie
               {| cookie_name := cookieName;
                  cookie_value := identifier session;
                  cookie_max_age := _maxAge self;
                  cookie_domain := _cookieDomain self;
                  cookie_path := _cookiePath self;
                  cookie_secure := sentSecurely;
                  cookie_httpOnly := true |}
         else ret tt) ;;
        secure <- gets isSecure ;;
        (if sentSecurely || negb secure
         then setComponent session
         else ret tt) ;;
        ret (Some session)
    end
  end.

(** ** [AuthorizationDenied] and [Authorization] *)

(** [AuthorizationDenied.render] *)
Definition render (self : AuthorizationDenied) : M bytes :=
  setResponseCode UNAUTHORIZED ;;
  ret (encode_utf8 (qual (_interface_denied self) ++ " DENIED")).

Record Authorization : Type := {
  _interface : IInterface;
  _required : bool
}.

Definition Authorization_init (interface : IInterface) (required : option bool)
  : Authorization :=
  {| _interface := interface; _required := default required true |}.

(** [Authorization.optional] *)
Definition optional (interface : IInterface) : Authorization :=
  Authorization_init interface (Some false).

Definition is_None {A} (o : option A) : bool :=
  match o with
  | None => true
  | Some _ => false
  end.

(** [Authorization.injectValue] *)
Definition injectValue (self : Authorization) : M (option Provider) :=
  session <- ISession_of_request ;;
  let provider := dict_get (authorize session [_interface self]) (_interface self) in
  if _required self && is_None provider
  then raise (EarlyExit {| _interface_denied := _interface self |})
  else ret provider.


(** ** Vocabulary of the statements

    What the transport classification of [procureSession] selects for a
    request, what the request presents under the selected names, and what
    the disclosure report does to the store. *)

Definition sentSecurelyFor (forceInsecure : bool) (r : IRequest) : bool :=
  isSecure r && negb forceInsecure.

Definition tokenHeaderFor (self : SessionProcurer) (forceInsecure : bool)
    (r : IRequest) : bytes :=
  if sentSecurelyFor forceInsecure r
  then _secureTokenHeader self else _insecureTokenHeader self.

Definition cookieNameFor (self : SessionProcurer) (forceInsecure : bool)
    (r : IRequest) : bytes :=
  if sentSecurelyFor forceInsecure r
  then _secureCookie self else _insecureCookie self.

(** The raw identifier a request presents and the mechanism it came by. *)
Definition presented (self : SessionProcurer) (forceInsecure : bool)
    (r : IRequest) : option (SessionMechanism * bytes) :=
  match getHeader (tokenHeaderFor self forceInsecure r) r with
  | Some v => Some (Header, v)
  | None =>
      match getCookie (cookieNameFor self forceInsecure r) r with
      | Some v => Some (Cookie, v)
      | None => None
      end
  end.

(** The store calls of the disclosure check, and the store after it. *)
Definition disclosure (self : SessionProcurer) (r : IRequest) : list StoreCall :=
  if isSecure r then [] else [CallSentInsecurely (allPossibleSentTokens self r)].

Definition disclosed (self : SessionProcurer) (w : World) : St :=
  if isSecure (request w) then storeState w
  else sentInsecurely (_store self) (allPossibleSentTokens self (request w)) (storeState w).

Definition is_ascii (raw : bytes) : bool :=
  forallb (fun c => (Byte.to_N c <? 128)%N) raw.

Definition isNewSession (c : StoreCall) : bool :=
  match c with CallNewSession _ _ => true | _ => false end.

Definition isSentInsecurely (c : StoreCall) : bool :=
  match c with CallSentInsecurely _ => true | _ => false end.

Definition isGET (r : IRequest) : bool := bytes_eqb (method r) (b "GET").

(** The cookie that [procureSession] issues for a session. *)
Definition sessionCookie (self : SessionProcurer) (forceInsecure : bool)
    (r : IRequest) (session : ISession) : SetCookie :=
  {| cookie_name := cookieNameFor self forceInsecure r;
     cookie_value := identifier session;
     cookie_max_age := _maxAge self;
     cookie_domain := _cookieDomain self;
     cookie_path := _cookiePath self;
     cookie_secure := sentSecurelyFor forceInsecure r;
     cookie_httpOnly := true |}.

(** An outcome reached after the store calls [cs]. *)
Definition after {A} (cs : list StoreCall)
    (o : (exn + A) * World * list StoreCall) : (exn + A) * World * list StoreCall :=
  (fst o, cs ++ snd o).

(** What the code does from line 143 on once [sessionID] is [None], run on
    a request [r] and a store state [st]: the creation rules, and for a
    created session the issue of its cookie and the caching rule. *)
Definition creation (self : SessionProcurer) (forceInsecure : bool)
    (r : IRequest) (st : St) : (exn + option ISession) * World * list StoreCall :=
  if negb (isGET r) || negb (_setCookieOnGET self) then
    (inr None, {| request := r; storeState := st |}, [])
  else if startedWriting r then
    (inl (TooLateForCookies too_late_to_initialize),
     {| request := r; storeState := st |}, [])
  else
    let sentSecurely := sentSecurelyFor forceInsecure r in
    let (session, st') := newSession (_store self) sentSecurely Cookie st in
    after [CallNewSession sentSecurely Cookie]
      ((addCookie (sessionCookie self forceInsecure r session) ;;
        (if sentSecurely || negb (isSecure r)
         then setComponent session else ret tt) ;;
        ret (Some session))
         {| request := r; storeState := st' |}).

(** The store after a sequence of calls on it. *)
Definition replay (store : ISessionStore) (cs : list StoreCall) (st : St) : St :=
  fold_left
    (fun st c =>
       match c with
       | CallNewSession sentSecurely mechanism =>
           snd (newSession store sentSecurely mechanism st)
       | CallLoadSession sessionID sentSecurely mechanism =>
           snd (loadSession store sessionID sentSecurely mechanism st)
       | CallSentInsecurely tokens => sentInsecurely store tokens st
       end)
    cs st.

(** No identifier is usable: none is presented, or the one presented came by
    cookie and the store does not know it. *)
Definition NoUsableIdentifier (self : SessionProcurer) (forceInsecure : bool)
    (w : World) : Prop :=
  presented self forceInsecure (request w) = None \/
  exists (raw : bytes) (sid : string) (st' : St),
    presented self forceInsecure (request w) = Some (Cookie, raw) /\
    decode_ascii raw = inr sid /\
    loadSession (_store self) sid (sentSecurelyFor forceInsecure (request w))
      Cookie (disclosed self w) = (inl NoSuchSession, st').

Definition createdByCookie (c : StoreCall) : Prop :=
  match c with
  | CallNewSession _ mechanism => mechanism = Cookie
  | _ => True
  end.

End Klein.

Arguments injectValue {Provider St} self w.
Arguments render {Provider St} self w.

(** ** Examples *)

Module Example.

(** Providers and store states are numbers here; the store state counts the
    sessions created so far. *)
Definition session (name : string) : ISession nat :=
  {| identifier := name; authorize := fun _ => [] |}.

(** A store that knows the sessions "good" and "old", answers a load of
    "old" with a session under the identifier "rotated", and names the
    sessions it creates after their rank. *)
Definition store : ISessionStore nat nat :=
  {| newSession := fun _ _ n =>
       (session (if Nat.eqb n 0 then "first" else "second"), S n);
     loadSession := fun sid _ _ n =>
       if String.eqb sid "good" then (inr (session "good"), n)
       else if String.eqb sid "old" then (inr (session "rotated"), n)
       else (inl NoSuchSession, n);
     sentInsecurely := fun _ n => n |}.

(** [SessionProcurer(store)] *)
Definition procurer : SessionProcurer nat nat :=
  {| _store := store;
     _maxAge := 3600;
     _secureCookie := b "Klein-Secure-Session";
     _insecureCookie := b "Klein-INSECURE-Session";
     _cookieDomain := None;
     _cookiePath := b "/";
     _secureTokenHeader := b "X-Auth-Token";
     _insecureTokenHeader := b "X-INSECURE-Auth-Token";
     _setCookieOnGET := true |}.

Fixpoint lookup {A} (key : bytes) (table : list (bytes * A)) : option A :=
  match table with
  | [] => None
  | (k, v) :: rest => if bytes_eqb k key then Some v else lookup key rest
  end.

(** A request received with the given headers and cookies, on which nothing
    has been written or set yet. *)
Definition received (secure : bool) (headers : list (bytes * list bytes))
    (cookies : list (bytes * bytes)) (meth : bytes) (started : bool)
  : IRequest nat :=
  {| isSecure := secure;
     requestHeaders := fun name =>
       match lookup name headers with Some vs => vs | None => [] end;
     received_cookies := fun name => lookup name cookies;
     method := meth;
     startedWriting := started;
     cookies := [];
     component := None;
     responseCode := 200 |}.

Definition world (r : IRequest nat) : World nat nat :=
  {| request := r; storeState := 0 |}.

(** The byte 0xff, which is not ASCII. *)
Definition non_ascii : bytes := [xff].

Definition IFoo : IInterface :=
  {| __module__ := "app.interfaces"; __name__ := "IFoo" |}.

(** A session that authorizes nothing. *)
Definition anonymous : ISession nat := session "good".

(** A session that provides [IFoo]. *)
Definition member : ISession nat :=
  {| identifier := "good";
     authorize := fun interfaces =>
       map (fun i => (i, if IInterface_eqb i IFoo then Some 7 else None)) interfaces |}.

(** A GET over plain HTTP whose insecure token header holds the byte 0xff. *)
Definition request_non_ascii : IRequest nat :=
  received false [(b "X-INSECURE-Auth-Token", [non_ascii])] [] (b "GET") false.

(** A GET over plain HTTP that presents nothing. *)
Definition request_plain : IRequest nat :=
  received false [] [] (b "GET") false.

(** A GET over HTTPS that presents nothing. *)
Definition request_tls : IRequest nat :=
  received true [] [] (b "GET") false.

(** A GET over HTTPS with a token header. *)
Definition request_token (token : string) : IRequest nat :=
  received true [(b "X-Auth-Token", [b token])] [] (b "GET") false.

(** A GET over HTTPS with a session cookie the store does not know. *)
Definition request_stale_cookie : IRequest nat :=
  received true [] [(b "Klein-Secure-Session", b "stale")] (b "GET") false.

(** A POST over HTTPS that presents nothing. *)
Definition request_post : IRequest nat :=
  received true [] [] (b "POST") false.

(** A POST over plain HTTP that presents nothing. *)
Definition request_post_plain : IRequest nat :=
  received false [] [] (b "POST") false.

(** A GET over HTTPS that presents nothing, the response already started. *)
Definition request_started : IRequest nat :=
  received true [] [] (b "GET") true.

(** A GET over plain HTTP that leaks a secure token in a header and carries
    an insecure session cookie. *)
Definition request_leaking : IRequest nat :=
  received false [(b "X-Auth-Token", [b "secret"])]
    [(b "Klein-INSECURE-Session", b "good")] (b "GET") false.

(** Requests on which a session has been set. *)
Definition request_of (s : ISession nat) : IRequest nat :=
  with_component request_tls (Some s).

(** A GET over HTTPS with a session cookie the store knows. *)
Definition request_known_cookie : IRequest nat :=
  received true [] [(b "Klein-Secure-Session", b "good")] (b "GET") false.

(** A GET over HTTPS with a known token header and a stale session cookie. *)
Definition request_header_and_cookie : IRequest nat :=
  received true [(b "X-Auth-Token", [b "good"])]
    [(b "Klein-Secure-Session", b "stale")] (b "GET") false.

(** A POST over plain HTTP whose insecure token header holds the byte 0xff. *)
Definition request_non_ascii_post : IRequest nat :=
  received false [(b "X-INSECURE-Auth-Token", [non_ascii])] [] (b "POST") false.

(** A GET over HTTPS that carries the insecure session cookie of a session
    the store knows. *)
Definition request_insecure_cookie : IRequest nat :=
  received true [] [(b "Klein-INSECURE-Session", b "good")] (b "GET") false.



(** A GET over HTTPS with a session cookie the store does not know, the
    response already started. *)
Definition request_stale_started : IRequest nat :=
  received true [] [(b "Klein-Secure-Session", b "stale")] (b "GET") true.

(** A store that counts what is reported to it: a report adds ten and the
    number of tokens to the state, a creation adds one. *)
Definition auditing_store : ISessionStore nat nat :=
  {| newSession := newSession store;
     loadSession := loadSession store;
     sentInsecurely := fun tokens n => n + 10 + List.length tokens |}.

(** [SessionProcurer(auditing_store)] *)
Definition auditing_procurer : SessionProcurer nat nat :=
  {| _store := auditing_store;
     _maxAge := 3600;
     _secureCookie := b "Klein-Secure-Session";
     _insecureCookie := b "Klein-INSECURE-Session";
     _cookieDomain := None;
     _cookiePath := b "/";
     _secureTokenHeader := b "X-Auth-Token";
     _insecureTokenHeader := b "X-INSECURE-Auth-Token";
     _setCookieOnGET := true |}.

(** A store whose every load fails with an error of its own. *)
Definition broken_store : ISessionStore nat nat :=
  {| newSession := newSession store;
     loadSession := fun _ _ _ n => (inl TypeError, n);
     sentInsecurely := sentInsecurely store |}.

(** [SessionProcurer(broken_store)] *)
Definition broken_procurer : SessionProcurer nat nat :=
  {| _store := broken_store;
     _maxAge := 3600;
     _secureCookie := b "Klein-Secure-Session";
     _insecureCookie := b "Klein-INSECURE-Session";
     _cookieDomain := None;
     _cookiePath := b "/";
     _secureTokenHeader := b "X-Auth-Token";
     _insecureTokenHeader := b "X-INSECURE-Auth-Token";
     _setCookieOnGET := true |}.

End Example.

(** ** Running a procurement by cases *)

Ltac unfold_M :=
  unfold procureSession, injectValue, render, ISession_of_request,
    addCookie, setComponent, setResponseCode,
    bind, gets, ret, raise, lift, except_NoSuchSession,
    store_loadSession, store_newSession, store_sentInsecurely,
    modify_request, getComponent, getCookie, calls, result, final in *;
  cbn [fst snd request storeState] in *.

Ltac split_on x :=
  lazymatch x with
  | context [match ?y with _ => _ end] => split_on y
  | _ => destruct x eqn:?
  end.

Ltac simpl_M :=
  cbn beta iota delta
    [fst snd app negb andb orb request storeState SessionMechanism_eqb
     isSecure requestHeaders received_cookies method startedWriting cookies
     component responseCode with_cookies with_component with_responseCode
     getComponent getCookie is_None _ensureBytes
     cookie_name cookie_value cookie_max_age cookie_domain cookie_path] in *.

Ltac case_step :=
  match goal with
  | H : ?x = _ |- context [match ?x with _ => _ end] => rewrite H
  | |- context [match ?x with _ => _ end] => split_on x
  end;
  simpl_M; try discriminate.

Ltac run := unfold_M; simpl_M; repeat case_step.

(** Propagate the boolean facts gathered along one path. *)
Ltac propagate :=
  repeat match goal with
    | H : ?x = true, H' : context [?x] |- _ =>
        tryif constr_eq H H' then fail else (rewrite H in H'; simpl_M)
    | H : ?x = false, H' : context [?x] |- _ =>
        tryif constr_eq H H' then fail else (rewrite H in H'; simpl_M)
    end;
  try discriminate.

(** Close a path whose boolean tests contradict each other. *)
Ltac conflict :=
  solve [ exfalso; unfold differs in *; simpl_M;
          repeat match goal with
            | H : context [bytes_eqb ?x ?y] |- _ => destruct (bytes_eqb x y); simpl_M
            | H : context [_setCookieOnGET ?s] |- _ => destruct (_setCookieOnGET s); simpl_M
            | H : context [String.eqb ?x ?y] |- _ => destruct (String.eqb x y); simpl_M
            end;
          congruence ].

(** Split a hypothesis on what the request presents. *)
Ltac present H :=
  repeat match type of H with
    | context [match ?x with _ => _ end] => destruct x eqn:?
    end;
  try discriminate H; try (injection H as <- <-).

(** The selection of names, by cases on the transport and on
    [forceInsecure]. *)
Ltac classify w forceInsecure :=
  unfold presented, tokenHeaderFor, cookieNameFor, sentSecurelyFor,
    disclosed, disclosure, isGET, getComponent, getCookie in *;
  destruct w as [r st]; simpl_M;
  destruct (isSecure r) eqn:?, forceInsecure; simpl_M.

Section Properties.

Variable Provider : Type.
Variable St : Type.

(** ** Basic facts *)

Lemma decode_ascii_error (raw : bytes) (e : exn) :
  decode_ascii raw = inl e -> e = UnicodeDecodeError.
Proof.
  induction raw as [|c rest IH]; simpl; [discriminate|].
  destruct (Byte.to_N c <? 128)%N.
  - destruct (decode_ascii rest) as [e'|s]; [|discriminate].
    intros [= <-]. now apply IH.
  - now intros [= <-].
Qed.

Lemma decode_ascii_is_ascii (raw : bytes) :
  is_ascii raw = false <-> decode_ascii raw = inl UnicodeDecodeError.
Proof.
  induction raw as [|c rest IH]; simpl.
  - split; discriminate.
  - destruct (Byte.to_N c <? 128)%N; simpl.
    + rewrite IH. destruct (decode_ascii rest) as [e|s].
      * tauto.
      * split; discriminate.
    + split; reflexivity.
Qed.

Lemma procureSession_cached (self : SessionProcurer Provider St) (forceInsecure : bool)
    (w : World Provider St) (s : ISession Provider) :
  component (request w) = Some s ->
  procureSession self forceInsecure w = (inr (Some s), w, []).
Proof.
  intros H. unfold procureSession, bind, gets, getComponent, ret.
  now rewrite H.
Qed.

(** ** Non-ASCII identifiers *)

(** C1 (as amended).  When the request carries no cached session and the
    identifier it presents, by header or by cookie, is not ASCII, the
    procurement fails with the decoding error: the [decode] sits outside
    the [try].  Nothing is loaded or created, no cookie is written and no
    session is cached; only the disclosure report of an insecure transport
    happens before. *)
Theorem procureSession_non_ascii_raises (self : SessionProcurer Provider St)
    (forceInsecure : bool) (w : World Provider St) (mechanism : SessionMechanism)
    (raw : bytes) :
  component (request w) = None ->
  presented self forceInsecure (request w) = Some (mechanism, raw) ->
  is_ascii raw = false ->
  procureSession self forceInsecure w =
    (inl UnicodeDecodeError,
     {| request := request w; storeState := disclosed self w |},
     disclosure self (request w)).
Proof.
  intros Hnone Hpres Hraw. apply decode_ascii_is_ascii in Hraw.
  classify w forceInsecure; run; congruence.
Qed.

(** ** The request-scoped cache *)

Lemma procureSession_caches (self : SessionProcurer Provider St) (forceInsecure : bool)
    (w : World Provider St) (s : ISession Provider) :
  result (procureSession self forceInsecure w) = inr (Some s) ->
  isSecure (request w) = false \/ forceInsecure = false \/
    component (request w) <> None ->
  component (request (final (procureSession self forceInsecure w))) = Some s.
Proof.
  intros Hres Hcache.
  destruct (component (request w)) as [s0|] eqn:Hc.
  - rewrite (procureSession_cached self forceInsecure w Hc) in *.
    unfold result, final in *. simpl in *. congruence.
  - assert (Hcache' : isSecure (request w) = false \/ forceInsecure = false)
      by (destruct Hcache as [H|[H|H]]; tauto).
    clear Hcache. revert Hres.
    classify w forceInsecure; run; intros; simpl_M;
      try congruence; try (destruct Hcache'; congruence); propagate.
Qed.

(** C2 (as amended).  When a procurement returns a session and it is not the
    case that [forceInsecure] is set on a secure transport without a session
    cached beforehand, the same call on the same request returns that very
    session again, makes no call on the store and leaves the request, its
    cookies included, as it was.  With [forceInsecure] on a secure transport
    the session is deliberately not cached on the request. *)
Theorem procureSession_twice (self : SessionProcurer Provider St) (forceInsecure : bool)
    (w : World Provider St) (s : ISession Provider) :
  result (procureSession self forceInsecure w) = inr (Some s) ->
  isSecure (request w) = false \/ forceInsecure = false \/
    component (request w) <> None ->
  procureSession self forceInsecure (final (procureSession self forceInsecure w)) =
    (inr (Some s), final (procureSession self forceInsecure w), []).
Proof.
  intros Hres Hcache.
  apply procureSession_cached.
  now apply procureSession_caches.
Qed.

(** ** Identifiers presented by header *)

Lemma differs_same (sid : string) : differs (Some sid) sid = false.
Proof. unfold differs. now rewrite String.eqb_refl. Qed.

Lemma differs_other (sid ident : string) :
  ident <> sid -> differs (Some sid) ident = true.
Proof.
  intros H. unfold differs.
  destruct (String.eqb sid ident) eqn:E; [|reflexivity].
  apply String.eqb_eq in E. congruence.
Qed.


(** ** Authorization *)

(** C4 (as amended).  On a request that carries a session: with [required]
    set and no provider for the interface in what the session authorizes,
    [injectValue] raises [EarlyExit] with an [AuthorizationDenied] resource
    for that interface, touching nothing; rendering that resource sets the
    response code to 401 and returns the UTF-8 bytes of the qualified name
    of the interface followed by " DENIED".  With [required] unset,
    [injectValue] does not fail and returns what the dict holds for the
    interface, a provider or [None]. *)
Theorem injectValue_on_session (self : Authorization) (w : World Provider St)
    (session : ISession Provider) :
  component (request w) = Some session ->
  let provider := dict_get (authorize session [_interface self]) (_interface self) in
  let denied := {| _interface_denied := _interface self |} in
  (_required self = true -> provider = None ->
   injectValue self w = (inl (EarlyExit denied), w, []) /\
   forall w' : World Provider St,
     result (render denied w') =
       inr (encode_utf8 (qual (_interface self) ++ " DENIED")) /\
     responseCode (request (final (render denied w'))) = 401%Z) /\
  (_required self = false -> injectValue self w = (inr provider, w, [])).
Proof.
  intros Hsession provider denied. subst provider denied. split.
  - intros Hreq Hnone. split.
    + unfold_M. rewrite Hsession, Hreq, Hnone. reflexivity.
    + intros w'. split; reflexivity.
  - intros Hreq. unfold_M. rewrite Hsession, Hreq. reflexivity.
Qed.

(** ** Identifiers that fail to load *)

Lemma procureSession_absent (self : SessionProcurer Provider St) (forceInsecure : bool)
    (w : World Provider St) :
  component (request w) = None ->
  presented self forceInsecure (request w) = None ->
  procureSession self forceInsecure w =
    after (disclosure self (request w))
      (creation self forceInsecure (request w) (disclosed self w)).
Proof.
  intros Hnone Hpres. unfold creation, after, sessionCookie.
  classify w forceInsecure; run; auto; try congruence; propagate; conflict.
Qed.

Lemma procureSession_cookie_failed (self : SessionProcurer Provider St)
    (forceInsecure : bool) (w : World Provider St) (raw : bytes) (sid : string) (st' : St) :
  component (request w) = None ->
  presented self forceInsecure (request w) = Some (Cookie, raw) ->
  decode_ascii raw = inr sid ->
  loadSession (_store self) sid (sentSecurelyFor forceInsecure (request w))
    Cookie (disclosed self w) = (inl NoSuchSession, st') ->
  procureSession self forceInsecure w =
    after (disclosure self (request w) ++
           [CallLoadSession sid (sentSecurelyFor forceInsecure (request w)) Cookie])
      (creation self forceInsecure (request w) st').
Proof.
  intros Hnone Hpres Hdec Hload. unfold creation, after, sessionCookie.
  classify w forceInsecure; run; auto; try congruence; propagate; conflict.
Qed.

(** C5 (as amended).  On a request without a cached session whose presented
    identifier decodes and fails to load with [NoSuchSession]: by header,
    the failure is the outcome of the procurement, after the disclosure
    report and the load and nothing else, the request untouched; by cookie,
    [NoSuchSession] never escapes and the procurement goes on with the
    creation rules from the store as the failed load left it, exactly what a
    request presenting no identifier gets: [None] when the request is not a
    GET or [setCookieOnGET] is off, [TooLateForCookies] once the response
    has started, and otherwise a [newSession] by cookie on the store. *)
Theorem procureSession_NoSuchSession (self : SessionProcurer Provider St)
    (forceInsecure : bool) (w : World Provider St) (mechanism : SessionMechanism)
    (raw : bytes) (sid : string) (st' : St) :
  component (request w) = None ->
  presented self forceInsecure (request w) = Some (mechanism, raw) ->
  decode_ascii raw = inr sid ->
  loadSession (_store self) sid (sentSecurelyFor forceInsecure (request w))
    mechanism (disclosed self w) = (inl NoSuchSession, st') ->
  let o := procureSession self forceInsecure w in
  let sec := sentSecurelyFor forceInsecure (request w) in
  let load := disclosure self (request w) ++ [CallLoadSession sid sec mechanism] in
  let w' := {| request := request w; storeState := st' |} in
  match mechanism with
  | Header => o = (inl NoSuchSession, w', load)
  | Cookie =>
      o = after load (creation self forceInsecure (request w) st') /\
      result o <> inl NoSuchSession /\
      (isGET (request w) = false \/ _setCookieOnGET self = false ->
       o = (inr None, w', load)) /\
      (isGET (request w) = true -> _setCookieOnGET self = true ->
       startedWriting (request w) = true ->
       o = (inl (TooLateForCookies too_late_to_initialize), w', load)) /\
      (isGET (request w) = true -> _setCookieOnGET self = true ->
       startedWriting (request w) = false ->
       calls o = load ++ [CallNewSession sec Cookie] /\
       storeState (final o) = snd (newSession (_store self) sec Cookie st'))
  end /\
  (forall w0 : World Provider St,
     component (request w0) = None ->
     presented self forceInsecure (request w0) = None ->
     procureSession self forceInsecure w0 =
       after (disclosure self (request w0))
         (creation self forceInsecure (request w0) (disclosed self w0))).
Proof.
  intros Hnone Hpres Hdec Hload o sec load w'. subst o sec load w'.
  split; [|intros w0; apply procureSession_absent].
  destruct mechanism.
  - rewrite (procureSession_cookie_failed self forceInsecure w Hnone Hpres Hdec Hload).
    split; [reflexivity|].
    unfold after, creation, result, calls, final, sessionCookie.
    destruct (isGET (request w)); destruct (_setCookieOnGET self);
      destruct (startedWriting (request w)); simpl;
      try (destruct (newSession _ _ _ _) as [session st''] eqn:Hnew);
      unfold_M; simpl_M; repeat case_step; rewrite ?app_nil_r;
      repeat split; intros; try discriminate; try tauto;
      try match goal with
          | H : _ \/ _ |- _ => destruct H; discriminate
          end;
      rewrite <- ?app_assoc; reflexivity.
  - clear - Hnone Hpres Hdec Hload.
    classify w forceInsecure; run; auto; congruence.
Qed.

(** ** When no session may be created *)

Lemma no_newSession_in_disclosure (self : SessionProcurer Provider St) (r : IRequest Provider)
    (rest : list StoreCall) :
  filter isNewSession (disclosure self r ++ rest) = filter isNewSession rest.
Proof. unfold disclosure. now destruct (isSecure r). Qed.

(** C9.  On a request without a cached session and without a usable
    identifier, when the method is not GET or [setCookieOnGET] is off, the
    procurement returns [None], never calls [newSession], and leaves the
    request as it was: no cookie written, nothing cached. *)
Theorem procureSession_no_creation (self : SessionProcurer Provider St)
    (forceInsecure : bool) (w : World Provider St) :
  component (request w) = None ->
  NoUsableIdentifier self forceInsecure w ->
  isGET (request w) = false \/ _setCookieOnGET self = false ->
  let o := procureSession self forceInsecure w in
  result o = inr None /\
  filter isNewSession (calls o) = [] /\
  request (final o) = request w.
Proof.
  intros Hnone Hid Hcond o. subst o.
  assert (Hc : negb (isGET (request w)) || negb (_setCookieOnGET self) = true)
    by (destruct Hcond as [-> | ->]; [reflexivity | apply orb_true_r]).
  destruct Hid as [Hpres | (raw & sid & st' & Hpres & Hdec & Hload)].
  - rewrite (procureSession_absent self forceInsecure w Hnone Hpres).
    unfold creation, after, result, calls, final. rewrite Hc. simpl.
    rewrite no_newSession_in_disclosure. auto.
  - rewrite (procureSession_cookie_failed self forceInsecure w Hnone Hpres Hdec Hload).
    unfold creation, after, result, calls, final. rewrite Hc. simpl.
    rewrite <- app_assoc, no_newSession_in_disclosure. auto.
Qed.

(** ** After the response has started *)

(** C8.  Once [startedWriting] is set, a procurement, however it ends, adds
    no cookie to the response and never calls [newSession].  Where a session
    would have to be created (no usable identifier, a GET, [setCookieOnGET]
    on) it raises [TooLateForCookies]; where the store loaded a session under
    an identifier other than the presented one (a GET, [setCookieOnGET] on)
    it raises [TooLateForCookies] as well. *)
Theorem procureSession_started_writing (self : SessionProcurer Provider St)
    (forceInsecure : bool) (w : World Provider St) :
  startedWriting (request w) = true ->
  let o := procureSession self forceInsecure w in
  cookies (request (final o)) = cookies (request w) /\
  filter isNewSession (calls o) = [] /\
  (component (request w) = None ->
   NoUsableIdentifier self forceInsecure w ->
   isGET (request w) = true -> _setCookieOnGET self = true ->
   result o = inl (TooLateForCookies too_late_to_initialize)) /\
  (forall (mechanism : SessionMechanism) (raw : bytes) (sid : string)
          (s : ISession Provider) (st' : St),
     component (request w) = None ->
     presented self forceInsecure (request w) = Some (mechanism, raw) ->
     decode_ascii raw = inr sid ->
     loadSession (_store self) sid (sentSecurelyFor forceInsecure (request w))
       mechanism (disclosed self w) = (inr s, st') ->
     identifier s <> sid ->
     isGET (request w) = true -> _setCookieOnGET self = true ->
     result o = inl (TooLateForCookies too_late_to_change)).
Proof.
  intros Hstart o. subst o. repeat split.
  - destruct w as [r st]. simpl_M. run; reflexivity.
  - destruct w as [r st]. simpl_M. run; reflexivity.
  - intros Hnone Hid HGET Hset.
    destruct Hid as [Hpres | (raw & sid & st' & Hpres & Hdec & Hload)].
    + rewrite (procureSession_absent self forceInsecure w Hnone Hpres).
      unfold creation, after, result. now rewrite HGET, Hset, Hstart.
    + rewrite (procureSession_cookie_failed self forceInsecure w Hnone Hpres Hdec Hload).
      unfold creation, after, result. now rewrite HGET, Hset, Hstart.
  - intros mechanism raw sid s st' Hnone Hpres Hdec Hload Hdiff HGET Hset.
    apply differs_other in Hdiff.
    classify w forceInsecure; present Hpres; run; auto; try congruence;
      rewrite Hdiff, HGET, Hset in *; discriminate.
Qed.

(** ** The disclosure report *)

Lemma allPossibleSentTokens_spec (self : SessionProcurer Provider St) (r : IRequest Provider)
    (v : bytes) :
  In v (allPossibleSentTokens self r) <->
  In v (getRawHeaders (_secureTokenHeader self) r) \/
  In v (getRawHeaders (_insecureTokenHeader self) r) \/
  v <> [] /\ (getCookie (_secureCookie self) r = Some v \/
              getCookie (_insecureCookie self) r = Some v).
Proof.
  unfold allPossibleSentTokens. simpl. rewrite !in_app_iff.
  destruct (getCookie (_secureCookie self) r) as [[|c1 v1]|];
    destruct (getCookie (_insecureCookie self) r) as [[|c2 v2]|];
    simpl; intuition (try congruence; try discriminate).
  all: try (right; right; split; [discriminate | intuition congruence]).
  all: match goal with
       | H : Some _ = Some _ |- _ => injection H as <-; auto
       end.
Qed.

(** C7.  On an insecure transport, without a cached session, the first call
    of a procurement on the store is [sentInsecurely], with every raw value
    of the secure and of the insecure token header and the non-empty value of
    the secure and of the insecure cookie, and with nothing when there is
    none; it is the only [sentInsecurely] call, whichever way the
    procurement ends.  The store takes the report in the state it was in,
    and every load or creation comes after it, on the store the report
    left. *)
Theorem procureSession_reports_disclosure (self : SessionProcurer Provider St)
    (forceInsecure : bool) (w : World Provider St) :
  component (request w) = None ->
  isSecure (request w) = false ->
  let o := procureSession self forceInsecure w in
  let tokens := allPossibleSentTokens self (request w) in
  (exists rest : list StoreCall,
     calls o = CallSentInsecurely tokens :: rest /\
     filter isSentInsecurely rest = [] /\
     storeState (final o) =
       replay (_store self) rest
         (sentInsecurely (_store self) tokens (storeState w))) /\
  (forall v : bytes,
     In v tokens <->
     In v (getRawHeaders (_secureTokenHeader self) (request w)) \/
     In v (getRawHeaders (_insecureTokenHeader self) (request w)) \/
     v <> [] /\ (getCookie (_secureCookie self) (request w) = Some v \/
                 getCookie (_insecureCookie self) (request w) = Some v)) /\
  (getRawHeaders (_secureTokenHeader self) (request w) = [] ->
   getRawHeaders (_insecureTokenHeader self) (request w) = [] ->
   truthy (getCookie (_secureCookie self) (request w)) = false ->
   truthy (getCookie (_insecureCookie self) (request w)) = false ->
   tokens = []).
Proof.
  intros Hnone Hinsecure o tokens. subst o tokens. repeat split.
  - destruct w as [r st]. simpl_M.
    run; eexists; (split; [reflexivity|]); (split; [reflexivity|]);
      unfold replay; simpl;
      repeat match goal with
        | H : _ = (_, _) |- _ => rewrite H; clear H; simpl
        end;
      reflexivity.
  - apply allPossibleSentTokens_spec.
  - apply allPossibleSentTokens_spec.
  - intros H1 H2 H3 H4. unfold allPossibleSentTokens. simpl.
    rewrite H1, H2, H3, H4. reflexivity.
Qed.

(** ** The mechanism of a created session *)

(** C10.  Every [newSession] call of a procurement has mechanism [Cookie].
    When the selected token header carries an identifier, so that the
    mechanism is [Header], the procurement never calls [newSession]: it
    returns the loaded session or fails. *)
Theorem newSession_only_by_cookie (self : SessionProcurer Provider St)
    (forceInsecure : bool) (w : World Provider St) :
  let o := procureSession self forceInsecure w in
  Forall createdByCookie (calls o) /\
  (forall raw : bytes,
     getHeader (tokenHeaderFor self forceInsecure (request w)) (request w) = Some raw ->
     filter isNewSession (calls o) = [] /\
     (forall v : option (ISession Provider), result o = inr v -> v <> None)).
Proof.
  intros o. subst o. split.
  - destruct w as [r st]. run; repeat constructor.
  - intros raw Hhdr.
    classify w forceInsecure; run; split; try reflexivity; try congruence.
Qed.

(** ** Construction *)

(** C6 (as amended).  Constructing a [SessionProcurer] validates nothing:
    whatever the arguments, it succeeds and stores each name as given, or
    its default when left out.  The defaults of the secure and insecure
    cookie names differ, and so do those of the header names. *)
Theorem SessionProcurer_init_unvalidated (store : ISessionStore Provider St)
    (maxAge : option Z) (secureCookie insecureCookie : option bytes)
    (cookieDomain : option (option bytes)) (cookiePath : option bytes)
    (secureTokenHeader insecureTokenHeader : option bytes)
    (setCookieOnGET : option bool) :
  (exists self : SessionProcurer Provider St,
     SessionProcurer_init store maxAge secureCookie insecureCookie cookieDomain
       cookiePath secureTokenHeader insecureTokenHeader setCookieOnGET = inr self /\
     _secureCookie self = default secureCookie (b "Klein-Secure-Session") /\
     _insecureCookie self = default insecureCookie (b "Klein-INSECURE-Session") /\
     _secureTokenHeader self = default secureTokenHeader (b "X-Auth-Token") /\
     _insecureTokenHeader self = default insecureTokenHeader (b "X-INSECURE-Auth-Token")) /\
  match SessionProcurer_init store None None None None None None None None with
  | inr self =>
      _secureCookie self <> _insecureCookie self /\
      _secureTokenHeader self <> _insecureTokenHeader self
  | inl _ => False
  end.
Proof.
  split.
  - eexists. repeat split.
  - simpl. split; discriminate.
Qed.

(** ** Further properties of [procureSession] *)

(** X1.  Without a cached session, the calls of a procurement on the store
    are the disclosure report of an insecure transport followed by at most
    one load and then at most one creation, and every one of them carries
    the security grade the transport classification chose. *)
Theorem procureSession_call_shape (self : SessionProcurer Provider St)
    (forceInsecure : bool) (w : World Provider St) :
  component (request w) = None ->
  let o := procureSession self forceInsecure w in
  let sec := sentSecurelyFor forceInsecure (request w) in
  exists rest : list StoreCall,
    calls o = disclosure self (request w) ++ rest /\
    (rest = [] \/
     (exists (sid : string) (m : SessionMechanism),
        rest = [CallLoadSession sid sec m]) \/
     rest = [CallNewSession sec Cookie] \/
     (exists sid : string,
        rest = [CallLoadSession sid sec Cookie; CallNewSession sec Cookie])).
Proof.
  intros Hnone o sec. subst o sec.
  classify w forceInsecure; run; try congruence;
    eexists; (split; [reflexivity|]); eauto 6.
Qed.

(** X2.  On a secure transport a procurement never calls [sentInsecurely],
    with or without [forceInsecure]. *)
Theorem procureSession_secure_no_report (self : SessionProcurer Provider St)
    (forceInsecure : bool) (w : World Provider St) :
  isSecure (request w) = true ->
  filter isSentInsecurely (calls (procureSession self forceInsecure w)) = [].
Proof.
  intros Hsecure. destruct w as [r st]. simpl_M. run; reflexivity.
Qed.


(** X4.  When the request is not a GET, or [setCookieOnGET] is off, a
    procurement writes no cookie and creates no session, whatever the
    request presents and whatever the store answers. *)
Theorem procureSession_passive (self : SessionProcurer Provider St)
    (forceInsecure : bool) (w : World Provider St) :
  isGET (request w) = false \/ _setCookieOnGET self = false ->
  let o := procureSession self forceInsecure w in
  cookies (request (final o)) = cookies (request w) /\
  filter isNewSession (calls o) = [].
Proof.
  intros Hcond o. subst o. unfold isGET in Hcond.
  destruct w as [r st]. simpl_M.
  run; auto;
    destruct Hcond as [Hcond|Hcond]; rewrite Hcond in *; simpl_M;
    rewrite ?andb_false_r, ?orb_true_r in *; discriminate.
Qed.

(** X5.  A procurement that fails, or that returns [None], leaves the
    request exactly as it was: no cookie added, no session cached. *)
Theorem procureSession_failure_leaves_request
    (self : SessionProcurer Provider St) (forceInsecure : bool)
    (w : World Provider St) :
  let o := procureSession self forceInsecure w in
  (exists e : exn, result o = inl e) \/ result o = inr None ->
  request (final o) = request w.
Proof.
  intros o. subst o. destruct w as [r st]. simpl_M.
  run; intros [[? ?]|?]; try discriminate; reflexivity.
Qed.

(** X6.  A procurement only ever touches the response cookies and the
    session component of the request: transport, received headers and
    cookies, method, [startedWriting] and response code stay as they were. *)
Theorem procureSession_frame (self : SessionProcurer Provider St)
    (forceInsecure : bool) (w : World Provider St) :
  let r' := request (final (procureSession self forceInsecure w)) in
  isSecure r' = isSecure (request w) /\
  requestHeaders r' = requestHeaders (request w) /\
  received_cookies r' = received_cookies (request w) /\
  method r' = method (request w) /\
  startedWriting r' = startedWriting (request w) /\
  responseCode r' = responseCode (request w).
Proof.
  intros r'. subst r'. destruct w as [r st]. simpl_M.
  run; repeat split; assumption.
Qed.

(** X7.  What a procurement leaves as the session component of a request
    that had none: the session it returns, when that session was sent
    securely or the transport is not secure, and nothing otherwise; in
    particular nothing with [forceInsecure] on a secure transport, and
    nothing when it fails or returns [None]. *)
Theorem procureSession_component (self : SessionProcurer Provider St)
    (forceInsecure : bool) (w : World Provider St) :
  component (request w) = None ->
  let o := procureSession self forceInsecure w in
  component (request (final o)) =
    match result o with
    | inr (Some s) =>
        if sentSecurelyFor forceInsecure (request w) || negb (isSecure (request w))
        then Some s else None
    | _ => None
    end.
Proof.
  intros Hnone o. subst o.
  classify w forceInsecure; run; propagate; try congruence; auto.
Qed.

(** X8.  A GET that presents no identifier, with [setCookieOnGET] on and the
    response not started, makes the store create a session by cookie, and
    then fails: [request.addCookie] is handed the int [_maxAge] as max age
    and raises [AttributeError].  The created session is neither returned
    nor cached, no cookie is stored, and the store stays as the creation
    left it. *)
Theorem procureSession_creates_on_GET (self : SessionProcurer Provider St)
    (forceInsecure : bool) (w : World Provider St) (s : ISession Provider)
    (st' : St) :
  component (request w) = None ->
  presented self forceInsecure (request w) = None ->
  isGET (request w) = true ->
  _setCookieOnGET self = true ->
  startedWriting (request w) = false ->
  newSession (_store self) (sentSecurelyFor forceInsecure (request w)) Cookie
    (disclosed self w) = (s, st') ->
  procureSession self forceInsecure w =
    (inl AttributeError,
     {| request := request w; storeState := st' |},
     disclosure self (request w) ++
     [CallNewSession (sentSecurelyFor forceInsecure (request w)) Cookie]).
Proof.
  intros Hnone Hpres HGET Hset Hstart Hnew.
  rewrite (procureSession_absent self forceInsecure w Hnone Hpres).
  unfold creation, after, sessionCookie.
  rewrite HGET, Hset, Hstart, Hnew. simpl.
  unfold_M. simpl_M. repeat case_step; reflexivity.
Qed.

(** X9.  A failure of [loadSession] other than [NoSuchSession] is the
    outcome of the procurement whatever the mechanism, a cookie included:
    nothing is created, and the request is left as it was. *)
Theorem procureSession_load_error (self : SessionProcurer Provider St)
    (forceInsecure : bool) (w : World Provider St)
    (mechanism : SessionMechanism) (raw : bytes) (sid : string) (e : exn)
    (st' : St) :
  component (request w) = None ->
  presented self forceInsecure (request w) = Some (mechanism, raw) ->
  decode_ascii raw = inr sid ->
  loadSession (_store self) sid (sentSecurelyFor forceInsecure (request w))
    mechanism (disclosed self w) = (inl e, st') ->
  e <> NoSuchSession ->
  procureSession self forceInsecure w =
    (inl e, {| request := request w; storeState := st' |},
     disclosure self (request w) ++
     [CallLoadSession sid (sentSecurelyFor forceInsecure (request w)) mechanism]).
Proof.
  intros Hnone Hpres Hdec Hload He.
  classify w forceInsecure; present Hpres; run; congruence.
Qed.

(** X10.  The token header wins over the cookie: when the selected header
    carries an ASCII identifier, the one lookup of the procurement is by
    that identifier with mechanism [Header], whatever cookies the request
    carries, and no other load or creation follows. *)
Theorem procureSession_header_precedence (self : SessionProcurer Provider St)
    (forceInsecure : bool) (w : World Provider St) (raw : bytes)
    (sid : string) :
  component (request w) = None ->
  getHeader (tokenHeaderFor self forceInsecure (request w)) (request w) = Some raw ->
  decode_ascii raw = inr sid ->
  calls (procureSession self forceInsecure w) =
    disclosure self (request w) ++
    [CallLoadSession sid (sentSecurelyFor forceInsecure (request w)) Header].
Proof.
  intros Hnone Hhdr Hdec.
  classify w forceInsecure; run; congruence.
Qed.

(** X11.  The cache is consulted before anything else: once a procurement
    has left its session on the request, any later procurement on that
    request, by any procurer and with any [forceInsecure], returns that
    session without calling a store or touching the request. *)
Theorem procureSession_cache_first (self self' : SessionProcurer Provider St)
    (forceInsecure forceInsecure' : bool) (w : World Provider St)
    (s : ISession Provider) :
  result (procureSession self forceInsecure w) = inr (Some s) ->
  isSecure (request w) = false \/ forceInsecure = false ->
  procureSession self' forceInsecure' (final (procureSession self forceInsecure w)) =
    (inr (Some s), final (procureSession self forceInsecure w), []).
Proof.
  intros Hres Hcache.
  apply procureSession_cached, procureSession_caches; tauto.
Qed.

(** X12.  A session loaded for the presented identifier, by header or by
    cookie, is returned without a cookie whenever its identifier is the
    presented one, or the request is not a GET, or [setCookieOnGET] is off;
    the outcome is then exactly the loaded session, the store as the load
    left it, and the request with the session cached by the caching rule. *)
Theorem procureSession_loaded (self : SessionProcurer Provider St)
    (forceInsecure : bool) (w : World Provider St)
    (mechanism : SessionMechanism) (raw : bytes) (sid : string)
    (s : ISession Provider) (st' : St) :
  component (request w) = None ->
  presented self forceInsecure (request w) = Some (mechanism, raw) ->
  decode_ascii raw = inr sid ->
  loadSession (_store self) sid (sentSecurelyFor forceInsecure (request w))
    mechanism (disclosed self w) = (inr s, st') ->
  identifier s = sid \/ isGET (request w) = false \/ _setCookieOnGET self = false ->
  procureSession self forceInsecure w =
    (inr (Some s),
     {| request :=
          if sentSecurelyFor forceInsecure (request w) || negb (isSecure (request w))
          then with_component (request w) (Some s) else request w;
        storeState := st' |},
     disclosure self (request w) ++
     [CallLoadSession sid (sentSecurelyFor forceInsecure (request w)) mechanism]).
Proof.
  intros Hnone Hpres Hdec Hload Hsame.
  assert (Hno : differs (Some sid) (identifier s) && isGET (request w)
                && _setCookieOnGET self = false).
  { destruct Hsame as [<-|[->| ->]].
    - now rewrite differs_same.
    - now rewrite andb_false_r.
    - now rewrite andb_false_r. }
  clear Hsame. revert Hno.
  classify w forceInsecure; intros Hno; present Hpres; run; propagate;
    auto; congruence.
Qed.

(** ** Further properties of [injectValue] *)

(** X13.  [injectValue] only reads: whether it returns or raises, it leaves
    the request and the store as they were and calls no store; in
    particular a denial does not set the response code, rendering does. *)
Theorem injectValue_reads_only (self : Authorization) (w : World Provider St) :
  final (injectValue self w) = w /\ calls (injectValue self w) = [].
Proof.
  unfold_M.
  destruct (component (request w)) as [session|]; [|split; reflexivity].
  destruct (_required self &&
            is_None (dict_get (authorize session [_interface self]) (_interface self)));
    split; reflexivity.
Qed.

(** X14.  When the session of the request provides the interface,
    [injectValue] returns the provider, required or not. *)
Theorem injectValue_provided (self : Authorization) (w : World Provider St)
    (session : ISession Provider) (p : Provider) :
  component (request w) = Some session ->
  dict_get (authorize session [_interface self]) (_interface self) = Some p ->
  injectValue self w = (inr (Some p), w, []).
Proof.
  intros Hsession Hp. unfold_M. rewrite Hsession, Hp.
  now rewrite andb_false_r.
Qed.

(** X15.  On a request without a session, [injectValue] fails with
    [TypeError], required or not, before the session is asked anything. *)
Theorem injectValue_without_session (self : Authorization)
    (w : World Provider St) :
  component (request w) = None ->
  injectValue self w = (inl TypeError, w, []).
Proof.
  intros Hnone. unfold_M. now rewrite Hnone.
Qed.

(** X16.  [injectValue] raises [EarlyExit] only for a required authorization
    on a request whose session has no provider for the interface, and the
    resource it carries denies that very interface. *)
Theorem injectValue_denial_only_when_required (self : Authorization)
    (w : World Provider St) (denied : AuthorizationDenied) :
  result (injectValue self w) = inl (EarlyExit denied) ->
  _required self = true /\
  denied = {| _interface_denied := _interface self |} /\
  exists session : ISession Provider,
    component (request w) = Some session /\
    dict_get (authorize session [_interface self]) (_interface self) = None.
Proof.
  unfold_M.
  destruct (component (request w)) as [session|] eqn:Hsession;
    [|discriminate].
  destruct (_required self) eqn:Hreq; simpl.
  - destruct (dict_get (authorize session [_interface self]) (_interface self))
      as [p|] eqn:Hp; simpl; [discriminate|].
    intros [= <-]. eauto.
  - discriminate.
Qed.

(** X17.  An authorization made by [optional] never denies: on every request
    [injectValue] either returns, or fails with [TypeError] for want of a
    session. *)
Theorem optional_never_denies (interface : IInterface) (w : World Provider St) :
  (component (request w) = None /\
   result (injectValue (optional interface) w) = inl TypeError) \/
  (exists session : ISession Provider,
     component (request w) = Some session /\
     result (injectValue (optional interface) w) =
       inr (dict_get (authorize session [interface]) interface)).
Proof.
  unfold_M. unfold optional, Authorization_init. simpl.
  destruct (component (request w)) as [session|]; [right | left]; eauto.
Qed.

End Properties.

(** ** The theorems at work *)

Example decode_ascii_text : decode_ascii (b "good") = inr "good"%string.
Proof. reflexivity. Qed.

Example decode_ascii_high_byte : decode_ascii [x67; xff] = inl UnicodeDecodeError.
Proof. reflexivity. Qed.

Example encode_utf8_ascii :
  encode_utf8 "IFoo DENIED" = b "IFoo DENIED".
Proof. reflexivity. Qed.

Example encode_utf8_latin : encode_utf8 (String (ascii_of_N 233) "") = [xc3; xa9].
Proof. reflexivity. Qed.

Import Example.

(** C1, counterexample.  The request presents a non-ASCII identifier by
    header: the procurement fails with the decoding error, on a GET and on a
    POST, where the POST without the identifier returns [None] and raises
    nothing. *)
Lemma non_ascii_identifier_raises :
  presented procurer false request_non_ascii = Some (Header, non_ascii) /\
  is_ascii non_ascii = false /\
  result (procureSession procurer false (world request_non_ascii)) =
    inl UnicodeDecodeError /\
  result (procureSession procurer false (world request_non_ascii_post)) =
    inl UnicodeDecodeError /\
  result (procureSession procurer false (world request_post_plain)) = inr None.
Proof. repeat split. Qed.

Lemma procureSession_non_ascii_raises_witness :
  procureSession procurer false (world request_non_ascii) =
    (inl UnicodeDecodeError,
     {| request := request_non_ascii;
        storeState := disclosed procurer (world request_non_ascii) |},
     disclosure procurer request_non_ascii).
Proof.
  apply (@procureSession_non_ascii_raises nat nat procurer false
           (world request_non_ascii) Header non_ascii); reflexivity.
Defined.

(** C2, counterexample.  With [forceInsecure] on a secure transport the
    session is not cached: the second call loads it from the store again.
    And a POST over plain HTTP that presents nothing gets no session, so
    nothing is cached, and the second call reports to the store again. *)
Lemma forced_insecure_procured_twice :
  let o1 := procureSession procurer true (world request_insecure_cookie) in
  let o2 := procureSession procurer true (final o1) in
  let p1 := procureSession procurer false (world request_post_plain) in
  let p2 := procureSession procurer false (final p1) in
  (result o1 = inr (Some (session "good")) /\
   component (request (final o1)) = None /\
   calls o2 = [CallLoadSession "good" false Cookie]) /\
  (result p1 = inr None /\
   calls p2 = [CallSentInsecurely []]).
Proof. repeat split. Qed.

Lemma procureSession_twice_witness :
  let o1 := procureSession procurer false (world request_leaking) in
  result o1 = inr (Some (session "good")) /\
  procureSession procurer false (final o1) =
    (inr (Some (session "good")), final o1, []).
Proof.
  split; [reflexivity|].
  apply (@procureSession_twice nat nat procurer false (world request_leaking)
           (session "good")); [reflexivity | left; reflexivity].
Defined.



(** C4, counterexample.  No session is set on the request: [injectValue]
    fails with [TypeError] although the authorization is optional. *)
Lemma optional_without_session :
  _required (optional IFoo) = false /\
  injectValue (optional IFoo) (world request_tls) =
    (inl TypeError, world request_tls, []).
Proof. split; reflexivity. Qed.

Lemma injectValue_on_session_witness :
  injectValue (Authorization_init IFoo None) (world (request_of anonymous)) =
    (inl (EarlyExit {| _interface_denied := IFoo |}),
     world (request_of anonymous), []) /\
  result (render {| _interface_denied := IFoo |} (world (request_of anonymous))) =
    inr (b "app.interfaces.IFoo DENIED") /\
  injectValue (optional IFoo) (world (request_of anonymous)) =
    (inr None, world (request_of anonymous), []) /\
  injectValue (optional IFoo) (world (request_of member)) =
    (inr (Some 7), world (request_of member), []).
Proof.
  pose proof (@injectValue_on_session nat nat (Authorization_init IFoo None)
                (world (request_of anonymous)) anonymous eq_refl) as [Hdenied _].
  destruct (Hdenied eq_refl eq_refl) as [Hraise Hrender].
  split; [|split; [|split]].
  - exact Hraise.
  - exact (proj1 (Hrender (world (request_of anonymous)))).
  - exact (proj2 (@injectValue_on_session nat nat (optional IFoo)
                    (world (request_of anonymous)) anonymous eq_refl) eq_refl).
  - exact (proj2 (@injectValue_on_session nat nat (optional IFoo)
                    (world (request_of member)) member eq_refl) eq_refl).
Defined.

(** C5, counterexample.  The request carries a session cookie the store
    does not know, on a GET whose response has started: [NoSuchSession] is
    swallowed, and [TooLateForCookies] escapes. *)
Lemma stale_cookie_too_late :
  presented procurer false request_stale_started = Some (Cookie, b "stale") /\
  loadSession store "stale" true Cookie 0 = (inl NoSuchSession, 0) /\
  result (procureSession procurer false (world request_stale_started)) =
    inl (TooLateForCookies too_late_to_initialize).
Proof. repeat split. Qed.

Lemma procureSession_NoSuchSession_witness :
  procureSession procurer false (world (request_token "unknown")) =
    (inl NoSuchSession, world (request_token "unknown"),
     [CallLoadSession "unknown" true Header]) /\
  procureSession procurer false (world request_stale_started) =
    (inl (TooLateForCookies too_late_to_initialize),
     world request_stale_started, [CallLoadSession "stale" true Cookie]) /\
  calls (procureSession procurer false (world request_stale_cookie)) =
    [CallLoadSession "stale" true Cookie; CallNewSession true Cookie].
Proof.
  pose proof (@procureSession_NoSuchSession nat nat procurer false
                (world request_stale_started) Cookie (b "stale")
                "stale" 0 eq_refl eq_refl eq_refl eq_refl)
    as ((_ & _ & _ & Hlate & _) & _).
  pose proof (@procureSession_NoSuchSession nat nat procurer false
                (world request_stale_cookie) Cookie (b "stale")
                "stale" 0 eq_refl eq_refl eq_refl eq_refl)
    as ((_ & _ & _ & _ & Hnew) & _).
  split; [|split].
  - exact (proj1 (@procureSession_NoSuchSession nat nat procurer false
                    (world (request_token "unknown")) Header (b "unknown")
                    "unknown" 0 eq_refl eq_refl eq_refl eq_refl)).
  - exact (Hlate eq_refl eq_refl eq_refl).
  - exact (proj1 (Hnew eq_refl eq_refl eq_refl)).
Defined.

(** C6, counterexample.  A procurer whose secure and insecure cookie names
    are equal, and whose header names are equal, is constructed without
    complaint. *)
Lemma equal_names_accepted :
  exists self : SessionProcurer nat nat,
    SessionProcurer_init store None (Some (b "sid")) (Some (b "sid")) None None
      (Some (b "X-Token")) (Some (b "X-Token")) None = inr self /\
    _secureCookie self = _insecureCookie self /\
    _secureTokenHeader self = _insecureTokenHeader self.
Proof. eexists. repeat split. Qed.

Lemma procureSession_reports_disclosure_witness :
  allPossibleSentTokens auditing_procurer request_leaking = [b "secret"; b "good"] /\
  (exists rest : list StoreCall,
     calls (procureSession auditing_procurer false (world request_leaking)) =
       CallSentInsecurely [b "secret"; b "good"] :: rest /\
     filter isSentInsecurely rest = [] /\
     storeState (final (procureSession auditing_procurer false (world request_leaking))) =
       replay auditing_store rest 12) /\
  (exists rest : list StoreCall,
     calls (procureSession auditing_procurer false (world request_post_plain)) =
       CallSentInsecurely [] :: rest /\
     filter isSentInsecurely rest = [] /\
     storeState (final (procureSession auditing_procurer false (world request_post_plain))) =
       replay auditing_store rest 10).
Proof.
  split; [reflexivity | split].
  - exact (proj1 (@procureSession_reports_disclosure nat nat auditing_procurer false
                    (world request_leaking) eq_refl eq_refl)).
  - exact (proj1 (@procureSession_reports_disclosure nat nat auditing_procurer false
                    (world request_post_plain) eq_refl eq_refl)).
Defined.

(** The report reaches the store: what the procurement leaves as the store
    state is what the store made of the report. *)
Example disclosure_reaches_the_store :
  storeState (final (procureSession auditing_procurer false (world request_leaking))) = 12 /\
  storeState (final (procureSession auditing_procurer false (world request_post_plain))) = 10.
Proof. split; reflexivity. Qed.

Lemma procureSession_started_writing_witness :
  let o := procureSession procurer false (world request_started) in
  cookies (request (final o)) = [] /\
  filter isNewSession (calls o) = [] /\
  result o = inl (TooLateForCookies too_late_to_initialize).
Proof.
  destruct (@procureSession_started_writing nat nat procurer false
              (world request_started) eq_refl) as (Hcookies & Hnew & Hcreate & _).
  split; [exact Hcookies | split; [exact Hnew |]].
  apply Hcreate; try reflexivity. left; reflexivity.
Defined.

Lemma procureSession_no_creation_witness :
  let o := procureSession procurer false (world request_post) in
  result o = inr None /\
  filter isNewSession (calls o) = [] /\
  request (final o) = request_post.
Proof.
  apply (@procureSession_no_creation nat nat procurer false (world request_post));
    [reflexivity | left; reflexivity | left; reflexivity].
Defined.

Lemma newSession_only_by_cookie_witness :
  calls (procureSession procurer false (world request_tls)) =
    [CallNewSession true Cookie] /\
  Forall createdByCookie (calls (procureSession procurer false (world request_tls))) /\
  filter isNewSession
    (calls (procureSession procurer false (world (request_token "unknown")))) = [].
Proof.
  split; [reflexivity | split].
  - exact (proj1 (@newSession_only_by_cookie nat nat procurer false (world request_tls))).
  - exact (proj1 (proj2 (@newSession_only_by_cookie nat nat procurer false
                           (world (request_token "unknown")))
                    (b "unknown") eq_refl)).
Defined.

(** ** The further properties at work *)

Lemma procureSession_call_shape_witness :
  exists rest : list StoreCall,
    calls (procureSession procurer false (world request_leaking)) =
      [CallSentInsecurely [b "secret"; b "good"]] ++ rest /\
    (rest = [] \/
     (exists (sid : string) (m : SessionMechanism),
        rest = [CallLoadSession sid false m]) \/
     rest = [CallNewSession false Cookie] \/
     (exists sid : string,
        rest = [CallLoadSession sid false Cookie; CallNewSession false Cookie])).
Proof.
  exact (@procureSession_call_shape nat nat procurer false
           (world request_leaking) eq_refl).
Defined.

Lemma procureSession_secure_no_report_witness :
  filter isSentInsecurely
    (calls (procureSession procurer true (world request_stale_cookie))) = [].
Proof.
  exact (@procureSession_secure_no_report nat nat procurer true
           (world request_stale_cookie) eq_refl).
Defined.

Lemma procureSession_passive_witness :
  let o := procureSession procurer false (world request_post) in
  cookies (request (final o)) = [] /\
  filter isNewSession (calls o) = [].
Proof.
  exact (@procureSession_passive nat nat procurer false (world request_post)
           (or_introl eq_refl)).
Defined.

Lemma procureSession_failure_leaves_request_witness :
  request (final (procureSession procurer false (world (request_token "unknown")))) =
    request_token "unknown".
Proof.
  apply (@procureSession_failure_leaves_request nat nat procurer false
           (world (request_token "unknown"))).
  left. exists NoSuchSession. reflexivity.
Defined.

Lemma procureSession_component_witness :
  component (request (final (procureSession procurer true (world request_tls)))) = None /\
  component (request (final (procureSession procurer true
                              (world request_insecure_cookie)))) = None /\
  component (request (final (procureSession procurer false
                              (world request_known_cookie)))) =
    Some (session "good").
Proof.
  split; [|split].
  - exact (@procureSession_component nat nat procurer true (world request_tls) eq_refl).
  - exact (@procureSession_component nat nat procurer true
             (world request_insecure_cookie) eq_refl).
  - exact (@procureSession_component nat nat procurer false
             (world request_known_cookie) eq_refl).
Defined.

Lemma procureSession_creates_on_GET_witness :
  procureSession procurer false (world request_plain) =
    (inl AttributeError,
     {| request := request_plain; storeState := 1 |},
     [CallSentInsecurely []; CallNewSession false Cookie]).
Proof.
  exact (@procureSession_creates_on_GET nat nat procurer false
           (world request_plain) (session "first") 1
           eq_refl eq_refl eq_refl eq_refl eq_refl eq_refl).
Defined.

Lemma procureSession_load_error_witness :
  procureSession broken_procurer false (world request_known_cookie) =
    (inl TypeError, world request_known_cookie,
     [CallLoadSession "good" true Cookie]).
Proof.
  apply (@procureSession_load_error nat nat broken_procurer false
           (world request_known_cookie) Cookie (b "good") "good" TypeError 0);
    try reflexivity.
  discriminate.
Defined.

Lemma procureSession_header_precedence_witness :
  calls (procureSession procurer false (world request_header_and_cookie)) =
    [CallLoadSession "good" true Header].
Proof.
  exact (@procureSession_header_precedence nat nat procurer false
           (world request_header_and_cookie) (b "good") "good"
           eq_refl eq_refl eq_refl).
Defined.

Lemma procureSession_cache_first_witness :
  let o := procureSession procurer false (world request_known_cookie) in
  procureSession broken_procurer true (final o) =
    (inr (Some (session "good")), final o, []).
Proof.
  apply (@procureSession_cache_first nat nat procurer broken_procurer false true
           (world request_known_cookie) (session "good"));
    [reflexivity | right; reflexivity].
Defined.

Lemma procureSession_loaded_witness :
  procureSession procurer false (world request_known_cookie) =
    (inr (Some (session "good")),
     world (with_component request_known_cookie (Some (session "good"))),
     [CallLoadSession "good" true Cookie]).
Proof.
  apply (@procureSession_loaded nat nat procurer false
           (world request_known_cookie) Cookie (b "good") "good"
           (session "good") 0); try reflexivity.
  left; reflexivity.
Defined.

Lemma injectValue_provided_witness :
  injectValue (Authorization_init IFoo None) (world (request_of member)) =
    (inr (Some 7), world (request_of member), []).
Proof.
  exact (@injectValue_provided nat nat (Authorization_init IFoo None)
           (world (request_of member)) member 7 eq_refl eq_refl).
Defined.

Lemma injectValue_without_session_witness :
  injectValue (Authorization_init IFoo None) (world request_post) =
    (inl TypeError, world request_post, []).
Proof.
  exact (@injectValue_without_session nat nat (Authorization_init IFoo None)
           (world request_post) eq_refl).
Defined.

Lemma injectValue_denial_only_when_required_witness :
  _required (Authorization_init IFoo None) = true /\
  {| _interface_denied := IFoo |} =
    {| _interface_denied := _interface (Authorization_init IFoo None) |} /\
  exists session : ISession nat,
    component (request (world (request_of anonymous))) = Some session /\
    dict_get (authorize session [IFoo]) IFoo = None.
Proof.
  exact (@injectValue_denial_only_when_required nat nat
           (Authorization_init IFoo None) (world (request_of anonymous))
           {| _interface_denied := IFoo |} eq_refl).
Defined.
